(** * valhalla_build_extract: the tile extract builder

    A shallow embedding of [scripts/valhalla_build_extract.py] and the
    properties of its tile identifiers, its index and its two archives. *)

From Stdlib Require Import ZArith List Ascii Bool Arith Lia.
From Stdlib Require String.
Import String.StringSyntax.
#[local] Delimit Scope string_scope with string.
From coqutil Require Import Byte Word.LittleEndianList.
Import ListNotations.

(** ** Python values used by the script *)

(** A [str] is modelled by its sequence of characters.  The model covers
    ASCII text: a character of [int()]'s input is a digit only when it is
    one of "0".."9".  The interpreter's limit on the number of digits that
    [int()] converts (4300 by default) is far above what a path holds and
    is left out. *)
Definition str := list ascii.

Definition s (x : String.string) : str := String.list_ascii_of_string x.
Arguments s x%_string.

Inductive exn : Type :=
| ValueError    (* int() on bad text, unpacking a list of the wrong length *)
| StructError   (* struct.error: argument out of range *)
| NameError.    (* a name that is not bound *)

Inductive result (A : Type) : Type :=
| Ok (a : A)
| Raise (e : exn).
Arguments Ok {A} a.
Arguments Raise {A} e.

Module Py.

Definition slash : ascii := "/"%char.

(** [a.endswith(suffix)] *)
Definition endswith (a suffix : str) : bool :=
  (length suffix <=? length a) &&
  if list_eq_dec ascii_dec (skipn (length a - length suffix) a) suffix
  then true else false.

(** [a[:-n]] for a positive literal [n] *)
Definition drop_last (n : nat) (a : str) : str := firstn (length a - n) a.

(** [a.split(sep, 1)]: at most one split, at the first [sep] *)
Fixpoint split_once (sep : ascii) (a : str) : option (str * str) :=
  match a with
  | [] => None
  | c :: r =>
      if Ascii.eqb c sep then Some ([], r)
      else match split_once sep r with
           | Some (h, t) => Some (c :: h, t)
           | None => None
           end
  end.

Definition split1 (sep : ascii) (a : str) : list str :=
  match split_once sep a with
  | Some (h, t) => [h; t]
  | None => [a]
  end.

(** [a.replace(c, '')] for a one-character [c] *)
Definition remove_char (c : ascii) (a : str) : str :=
  filter (fun x => negb (Ascii.eqb x c)) a.

(** [sep.join(parts)] *)
Fixpoint join (sep : str) (parts : list str) : str :=
  match parts with
  | [] => []
  | [p] => p
  | p :: ps => p ++ sep ++ join sep ps
  end.

(** Whitespace that [int()] strips from ASCII text: space, \t, \n, \v,
    \f and \r. *)
Definition isspace (c : ascii) : bool :=
  let n := nat_of_ascii c in
  (n =? 32) || ((9 <=? n) && (n <=? 13)).

Definition digit (c : ascii) : option Z :=
  let n := nat_of_ascii c in
  if (48 <=? n) && (n <=? 57) then Some (Z.of_nat (n - 48)) else None.

Fixpoint lstrip (a : str) : str :=
  match a with
  | c :: r => if isspace c then lstrip r else a
  | [] => []
  end.

Definition strip (a : str) : str := rev (lstrip (rev (lstrip a))).

(** Digits after the first one: a single underscore may separate two
    digits; [under] says that the previous character was one. *)
Fixpoint int_digits (acc : Z) (under : bool) (a : str) : option Z :=
  match a with
  | [] => if under then None else Some acc
  | c :: r =>
      if Ascii.eqb c "_"%char
      then (if under then None else int_digits acc true r)
      else match digit c with
           | Some d => int_digits (10 * acc + d) false r
           | None => None
           end
  end.

Definition int_unsigned (a : str) : option Z :=
  match a with
  | c :: r => match digit c with
              | Some d => int_digits d false r
              | None => None
              end
  | [] => None
  end.

(** [int(a)]: surrounding whitespace, one optional sign, then digits.
    [None] stands for the [ValueError] it raises. *)
Definition int (a : str) : option Z :=
  match strip a with
  | c :: r =>
      if Ascii.eqb c "-"%char then option_map Z.opp (int_unsigned r)
      else if Ascii.eqb c "+"%char then int_unsigned r
      else int_unsigned (c :: r)
  | [] => None
  end.

End Py.

(** ** Constants of the script *)

(** [struct.calcsize('<QLL')] *)
Definition INDEX_BIN_SIZE : nat := 8 + 4 + 4.
Definition INDEX_FILE : str := s "index.bin".
(** [struct.calcsize('<Q2f16cQ')]: the first 40 bytes of the tile header *)
Definition GRAPHTILE_SKIP_BYTES : nat := 8 + 2 * 4 + 16 * 1 + 8.
(** [struct.calcsize('<2Q4I')] *)
Definition TRAFFIC_HEADER_SIZE : nat := 2 * 8 + 4 * 4.
(** [struct.calcsize('<Q')] *)
Definition TRAFFIC_SPEED_SIZE : nat := 8.

Definition gph : str := s ".gph".

(** ** get_tile_id *)

(** Turns a tile path into a numeric GraphId.  The assignment
    [level, idx = ...] raises [ValueError] unless the split gives two
    parts; each [int()] raises [ValueError] on text it does not read. *)
Definition get_tile_id (path : str) : result Z :=
  match Py.split1 Py.slash (Py.drop_last 4 path) with
  | [level; idx] =>
      match Py.int level with
      | None => Raise ValueError
      | Some l =>
          match Py.int (Py.remove_char Py.slash idx) with
          | None => Raise ValueError
          | Some i => Ok (Z.lor l (Z.shiftl i 3))
          end
      end
  | _ => Raise ValueError
  end.

Example get_tile_id_ex1 : get_tile_id (s "0/001.gph") = Ok 8%Z.
Proof. reflexivity. Qed.
Example get_tile_id_ex2 : get_tile_id (s "2/000/816/123.gph") = Ok 6528986%Z.
Proof. vm_compute. reflexivity. Qed.
Example get_tile_id_ex3 : get_tile_id (s "x.gph") = Raise ValueError.
Proof. reflexivity. Qed.
Example int_ex1 : Py.int (s " +1_000 ") = Some 1000%Z.
Proof. reflexivity. Qed.
Example int_ex2 : Py.int (s "1__0") = None /\ Py.int (s "_1") = None /\ Py.int (s "1_") = None /\ Py.int (s "+ 1") = None /\ Py.int (s "") = None.
Proof. repeat split; reflexivity. Qed.

(** ** Strings: facts about the built-ins *)

Section StrFacts.

Lemma drop_last_app (a e : str) : Py.drop_last (length e) (a ++ e) = a.
Proof.
  unfold Py.drop_last. rewrite length_app.
  replace (length a + length e - length e) with (length a + 0) by lia.
  rewrite firstn_app_2. simpl. apply app_nil_r.
Qed.

Lemma split_once_none (sep : ascii) (a : str) :
  Py.split_once sep a = None <-> ~ In sep a.
Proof.
  induction a as [|c r IH]; simpl.
  - tauto.
  - destruct (Ascii.eqb_spec c sep) as [->|Hne].
    + split; [discriminate | intros H; exfalso; apply H; now left].
    + destruct (Py.split_once sep r) as [[h t]|].
      * split; [discriminate|]. intros H. exfalso. apply H. right.
        destruct (in_dec ascii_dec sep r) as [Hin|Hnin]; [assumption|].
        apply IH in Hnin. discriminate.
      * split; [|reflexivity]. intros _ [Heq|Hin]; [congruence|].
        now apply (proj1 IH).
Qed.

Lemma split_once_some (sep : ascii) (a h t : str) :
  Py.split_once sep a = Some (h, t) <-> a = h ++ sep :: t /\ ~ In sep h.
Proof.
  revert h; induction a as [|c r IH]; intros h; simpl.
  - split; [discriminate|]. intros [H _]. destruct h; discriminate.
  - destruct (Ascii.eqb_spec c sep) as [->|Hne].
    + split.
      * intros [= <- <-]. simpl. auto.
      * intros [Heq Hnin]. destruct h as [|c' h']; simpl in *.
        -- injection Heq as ->. reflexivity.
        -- exfalso. apply Hnin. left. injection Heq as -> _. reflexivity.
    + destruct (Py.split_once sep r) as [[h0 t0]|] eqn:E.
      * split.
        -- intros [= <- <-]. destruct (proj1 (IH h0) eq_refl) as [-> Hn].
           split; [reflexivity|]. intros [Hc|Hin]; [congruence|tauto].
        -- intros [Heq Hnin]. destruct h as [|c' h']; simpl in *.
           ++ injection Heq as Hc _. contradiction.
           ++ injection Heq as <- ->.
              assert (Some (h0, t0) = Some (h', t)) as [= -> ->]; [|reflexivity].
              apply IH. split; [reflexivity|tauto].
      * split; [discriminate|]. intros [Heq Hnin].
        destruct h as [|c' h']; simpl in *;
          [injection Heq as Hc _; contradiction|].
        injection Heq as <- ->.
        assert (None = Some (h', t)) by (apply IH; split; [reflexivity|tauto]).
        discriminate.
Qed.

Lemma remove_char_app (c : ascii) (a b : str) :
  Py.remove_char c (a ++ b) = Py.remove_char c a ++ Py.remove_char c b.
Proof. apply filter_app. Qed.

Lemma remove_char_absent (c : ascii) (a : str) :
  ~ In c a -> Py.remove_char c a = a.
Proof.
  induction a as [|x r IH]; simpl; intros H; [reflexivity|].
  destruct (Ascii.eqb_spec x c) as [->|Hne]; simpl.
  - exfalso. apply H. now left.
  - f_equal. apply IH. tauto.
Qed.

Lemma remove_char_join (c : ascii) (parts : list str) :
  Forall (fun p => ~ In c p) parts ->
  Py.remove_char c (Py.join [c] parts) = concat parts.
Proof.
  induction 1 as [|p ps Hp Hps IH]; [reflexivity|].
  destruct ps as [|q qs].
  - simpl. rewrite app_nil_r. now apply remove_char_absent.
  - change (Py.join [c] (p :: q :: qs)) with (p ++ [c] ++ Py.join [c] (q :: qs)).
    rewrite !remove_char_app, IH, remove_char_absent by assumption.
    simpl. now rewrite Ascii.eqb_refl.
Qed.

End StrFacts.

(** The path of a tile: its level, then the segments of its index, then
    the extension. *)
Definition tile_path (level : str) (segments : list str) : str :=
  level ++ [Py.slash] ++ Py.join [Py.slash] segments ++ gph.

Lemma get_tile_id_tile_path (level : str) (segments : list str) :
  ~ In Py.slash level ->
  Forall (fun p => ~ In Py.slash p) segments ->
  get_tile_id (tile_path level segments) =
  match Py.int level, Py.int (concat segments) with
  | Some l, Some d => Ok (Z.lor l (Z.shiftl d 3))
  | _, _ => Raise ValueError
  end.
Proof.
  intros Hl Hs. unfold get_tile_id, tile_path.
  replace (level ++ [Py.slash] ++ Py.join [Py.slash] segments ++ gph)
    with ((level ++ Py.slash :: Py.join [Py.slash] segments) ++ gph)
    by (now rewrite <- app_assoc).
  change 4 with (length gph). rewrite drop_last_app.
  unfold Py.split1.
  rewrite (proj2 (split_once_some Py.slash _ level (Py.join [Py.slash] segments)))
    by (split; [reflexivity | assumption]).
  rewrite remove_char_join by assumption.
  destruct (Py.int level); [|reflexivity].
  destruct (Py.int (concat segments)); reflexivity.
Qed.

(** C2: for a tile path [<level>/<segments>.gph], [get_tile_id] returns
    [int(level) | (int(d) << 3)], [d] being the segments after the level
    concatenated; ["0/001.gph"] gives [0|(1<<3) = 8] and ["1/002/003.gph"]
    gives [1|(2003<<3)]. *)
Theorem get_tile_id_encodes (level : str) (segments : list str) (l d : Z) :
  ~ In Py.slash level ->
  Forall (fun p => ~ In Py.slash p) segments ->
  Py.int level = Some l ->
  Py.int (concat segments) = Some d ->
  get_tile_id (tile_path level segments) = Ok (Z.lor l (Z.shiftl d 3))
  /\ get_tile_id (s "0/001.gph") = Ok (Z.lor 0 (Z.shiftl 1 3))
  /\ get_tile_id (s "0/001.gph") = Ok 8%Z
  /\ get_tile_id (s "1/002/003.gph") = Ok (Z.lor 1 (Z.shiftl 2003 3)).
Proof.
  intros Hl Hs El Ed. split.
  - rewrite get_tile_id_tile_path by assumption. now rewrite El, Ed.
  - repeat split; reflexivity.
Qed.

Lemma get_tile_id_encodes_witness :
  get_tile_id (tile_path (s "2") [s "000"; s "816"; s "123"])
  = Ok (Z.lor 2 (Z.shiftl 816123 3)).
Proof.
  refine (proj1 (@get_tile_id_encodes (s "2") [s "000"; s "816"; s "123"] 2 816123 _ _ _ _)).
  - vm_compute. intuition discriminate.
  - repeat constructor; vm_compute; intuition discriminate.
  - reflexivity.
  - reflexivity.
Defined.

(** ** When get_tile_id raises *)

Definition raises {A : Type} (r : result A) : bool :=
  match r with Raise _ => true | Ok _ => false end.

(** The rejection rule in the words of the specification, for comparison
    with the code: a path is malformed when it has no separator, when the
    text before the first separator is not a small non-negative integer
    (decimal digits only, value within the three bits of a level), or when
    the remainder, separators removed, is empty or not made of digits. *)
Definition all_digits (a : str) : bool :=
  negb (length a =? 0)
  && forallb (fun c => match Py.digit c with Some _ => true | None => false end) a.

Definition decimal (a : str) : Z :=
  fold_left (fun acc c => (10 * acc + match Py.digit c with Some d => d | None => 0 end)%Z) a 0%Z.

Definition MalformedPath_spec (path : str) : bool :=
  match Py.split_once Py.slash (Py.drop_last 4 path) with
  | None => true
  | Some (levelStr, remainder) =>
      negb (all_digits levelStr && (decimal levelStr <=? 7)%Z)
      || negb (all_digits (Py.remove_char Py.slash remainder))
  end.

Lemma get_tile_id_raises_only_ValueError (path : str) (e : exn) :
  get_tile_id path = Raise e -> e = ValueError.
Proof.
  unfold get_tile_id.
  destruct (Py.split1 Py.slash (Py.drop_last 4 path)) as [|level [|idx [|x l]]];
    try (intros [= <-]; reflexivity).
  destruct (Py.int level); [|intros [= <-]; reflexivity].
  destruct (Py.int (Py.remove_char Py.slash idx)); [discriminate|].
  intros [= <-]; reflexivity.
Qed.

(** C5, as the code has it: [get_tile_id] raises, and then [ValueError],
    exactly when the path without its last four characters has no
    separator, or [int()] rejects the text before the first separator, or
    [int()] rejects the rest with its separators removed; on every other
    path it returns an identifier.  A level that [int()] reads is never
    checked for its sign or size. *)
Theorem get_tile_id_raises_iff (path : str) :
  (get_tile_id path = Raise ValueError <->
     ~ In Py.slash (Py.drop_last 4 path)
     \/ exists level idx,
          Py.drop_last 4 path = level ++ Py.slash :: idx
          /\ ~ In Py.slash level
          /\ (Py.int level = None
              \/ Py.int (Py.remove_char Py.slash idx) = None))
  /\ (raises (get_tile_id path) = false <->
        exists z, get_tile_id path = Ok z)
  /\ (forall e, get_tile_id path = Raise e -> e = ValueError).
Proof.
  split; [|split].
  - unfold get_tile_id, Py.split1.
    destruct (Py.split_once Py.slash (Py.drop_last 4 path)) as [[h t]|] eqn:E.
    + apply split_once_some in E. destruct E as [E Hh].
      split.
      * intros H. right. exists h, t. split; [assumption|]. split; [assumption|].
        destruct (Py.int h); [|now left].
        destruct (Py.int (Py.remove_char Py.slash t)); [discriminate|now right].
      * intros [Hno | (level & idx & E' & Hl & Hint)].
        -- exfalso. apply Hno. rewrite E. apply in_or_app. right. now left.
        -- assert (Hs : Py.split_once Py.slash (Py.drop_last 4 path) = Some (h, t))
             by (apply split_once_some; auto).
           assert (Hs' : Py.split_once Py.slash (Py.drop_last 4 path) = Some (level, idx))
             by (apply split_once_some; auto).
           rewrite Hs in Hs'. injection Hs' as <- <-.
           destruct Hint as [-> | Hi]; [reflexivity|].
           rewrite Hi. destruct (Py.int h); reflexivity.
    + split; [|reflexivity]. intros _. left. now apply split_once_none.
  - destruct (get_tile_id path) as [z|e]; simpl.
    + split; [eauto|reflexivity].
    + split; [discriminate|]. intros [z Hz]. discriminate.
  - apply get_tile_id_raises_only_ValueError.
Qed.

(** C5 as written fails: a negative level and a level above 7 are malformed by
    the specification's rule, and the code encodes both. *)
Lemma get_tile_id_accepts_malformed :
  ~ (forall path, raises (get_tile_id path) = true <-> MalformedPath_spec path = true).
Proof.
  intros H.
  assert (E1 : MalformedPath_spec (s "-1/1.gph") = true) by reflexivity.
  apply H in E1. vm_compute in E1. discriminate.
Qed.

Example get_tile_id_negative_level : get_tile_id (s "-1/1.gph") = Ok (-1)%Z.
Proof. reflexivity. Qed.

Example get_tile_id_level_8 :
  MalformedPath_spec (s "8/1.gph") = true
  /\ get_tile_id (s "8/1.gph") = Ok 8%Z
  /\ get_tile_id (s "0/1.gph") = Ok 8%Z.
Proof. repeat split; reflexivity. Qed.

(** ** Paths made of decimal digits *)

Definition isdigit (c : ascii) : bool :=
  match Py.digit c with Some _ => true | None => false end.

Lemma digit_bounds (c : ascii) :
  isdigit c = true -> 48 <= nat_of_ascii c <= 57.
Proof.
  unfold isdigit, Py.digit.
  destruct ((48 <=? nat_of_ascii c) && (nat_of_ascii c <=? 57)) eqn:E;
    [|discriminate].
  apply andb_true_iff in E. destruct E as [E1 E2].
  apply Nat.leb_le in E1. apply Nat.leb_le in E2. intros _. lia.
Qed.

Lemma digit_not_space (c : ascii) : isdigit c = true -> Py.isspace c = false.
Proof.
  intros H. apply digit_bounds in H. unfold Py.isspace.
  apply orb_false_iff. split.
  - apply Nat.eqb_neq. lia.
  - apply andb_false_iff. right. apply Nat.leb_gt. lia.
Qed.

Lemma digit_not_char (c x : ascii) :
  isdigit c = true ->
  nat_of_ascii x < 48 \/ 57 < nat_of_ascii x ->
  Ascii.eqb c x = false.
Proof.
  intros H Hx. apply digit_bounds in H.
  destruct (Ascii.eqb_spec c x) as [->|]; [lia|reflexivity].
Qed.

Lemma lstrip_digits (a : str) : forallb isdigit a = true -> Py.lstrip a = a.
Proof.
  destruct a as [|c r]; [reflexivity|]. cbn [forallb Py.lstrip].
  intros H. apply andb_true_iff in H. destruct H as [H _].
  now rewrite (digit_not_space c H).
Qed.

Lemma strip_digits (a : str) : forallb isdigit a = true -> Py.strip a = a.
Proof.
  intros H. unfold Py.strip. rewrite (lstrip_digits a H).
  rewrite lstrip_digits; [apply rev_involutive|].
  apply forallb_forall. intros c Hc. apply in_rev in Hc.
  rewrite forallb_forall in H. now apply H.
Qed.

Lemma int_digits_decimal (r : str) :
  forall acc,
    forallb isdigit r = true ->
    Py.int_digits acc false r
    = Some (fold_left
              (fun acc c => (10 * acc + match Py.digit c with
                                        | Some d => d
                                        | None => 0
                                        end)%Z) r acc).
Proof.
  induction r as [|c r IH]; intros acc H; [reflexivity|].
  cbn [forallb] in H. apply andb_true_iff in H. destruct H as [Hc Hr].
  cbn [Py.int_digits fold_left].
  rewrite (digit_not_char c "_" Hc) by (right; vm_compute; lia).
  unfold isdigit in Hc. destruct (Py.digit c) as [d|]; [|discriminate].
  now apply IH.
Qed.

(** On a text of decimal digits [int()] gives the number they write. *)
Lemma int_decimal (a : str) : all_digits a = true -> Py.int a = Some (decimal a).
Proof.
  unfold all_digits. intros H. apply andb_true_iff in H. destruct H as [Hne H].
  fold isdigit in H. change (forallb isdigit a = true) in H.
  unfold Py.int. rewrite (strip_digits a H).
  destruct a as [|c r]; [discriminate|].
  cbn [forallb] in H. apply andb_true_iff in H. destruct H as [Hc Hr].
  rewrite (digit_not_char c "-" Hc) by (left; vm_compute; lia).
  rewrite (digit_not_char c "+" Hc) by (left; vm_compute; lia).
  unfold Py.int_unsigned, decimal. cbn [fold_left].
  unfold isdigit in Hc. destruct (Py.digit c) as [d|]; [|discriminate].
  rewrite (int_digits_decimal r d Hr). reflexivity.
Qed.

Lemma digits_no_slash (a : str) : forallb isdigit a = true -> ~ In Py.slash a.
Proof.
  intros H Hin. rewrite forallb_forall in H. specialize (H _ Hin).
  apply digit_bounds in H. vm_compute in H. lia.
Qed.

(** The identifier of a path whose level and index are written in decimal
    digits: the level in the low three bits when it is at most 7, the index
    above them. *)
Lemma get_tile_id_decimal (level : str) (segments : list str) :
  all_digits level = true ->
  Forall (fun p => forallb isdigit p = true) segments ->
  concat segments <> [] ->
  get_tile_id (tile_path level segments)
  = Ok (Z.lor (decimal level) (Z.shiftl (decimal (concat segments)) 3)).
Proof.
  intros Hl Hs Hne.
  assert (Hl' : forallb isdigit level = true).
  { unfold all_digits in Hl. apply andb_true_iff in Hl. exact (proj2 Hl). }
  assert (Hc : all_digits (concat segments) = true).
  { unfold all_digits. apply andb_true_iff. split.
    - destruct (concat segments); [contradiction|reflexivity].
    - change (forallb isdigit (concat segments) = true).
      apply forallb_forall. intros c Hin. apply in_concat in Hin.
      destruct Hin as (p & Hp & Hcp). rewrite Forall_forall in Hs.
      specialize (Hs p Hp). rewrite forallb_forall in Hs. now apply Hs. }
  rewrite get_tile_id_tile_path.
  - now rewrite (int_decimal level Hl), (int_decimal _ Hc).
  - now apply digits_no_slash.
  - eapply Forall_impl; [|exact Hs]. intros p. apply digits_no_slash.
Qed.

Example get_tile_id_decimal_ex :
  get_tile_id (tile_path (s "2") [s "000"; s "816"; s "123"]) = Ok 6528986%Z.
Proof.
  rewrite get_tile_id_decimal; [reflexivity|reflexivity| |discriminate].
  repeat constructor.
Qed.

(** ** The tile directory *)

(** What the script sees of the file system under [tiles_fp_]: regular
    files with their bytes and directories with their named entries, each
    with the modification time its [stat] reports.  Links and special files
    are left out.  The three paths of a run name three different places, and
    the two archives lie outside the tile directory. *)
#[local] Unset Elimination Schemes.
Inductive node : Type :=
| File (st_mtime : Z) (data : list byte)
| Dir (st_mtime : Z) (entries : list (str * node)).
#[local] Set Elimination Schemes.

Definition is_dir (n : node) : bool :=
  match n with Dir _ _ => true | File _ _ => false end.

Record FS : Type := mkFS {
  tile_dir : option node;              (* at [tiles_fp_]; [None]: nothing there *)
  extract_file : option (list byte);   (* at [extract_fp_] *)
  traffic_file : option (list byte)    (* at [traffic_fp_] *)
}.

(** [os.path.join(a, b)] on POSIX *)
Definition path_join (a b : str) : str :=
  match b with
  | c :: _ =>
      if Ascii.eqb c Py.slash then b
      else if (length a =? 0) || Py.endswith a [Py.slash] then a ++ b
           else a ++ [Py.slash] ++ b
  | [] =>
      if (length a =? 0) || Py.endswith a [Py.slash] then a ++ b
      else a ++ [Py.slash] ++ b
  end.

(** Order of [str] values: by character code, a prefix first. *)
Fixpoint str_leb (a b : str) : bool :=
  match a, b with
  | [], _ => true
  | _ :: _, [] => false
  | x :: a', y :: b' =>
      if nat_of_ascii x <? nat_of_ascii y then true
      else if nat_of_ascii y <? nat_of_ascii x then false
      else str_leb a' b'
  end.

(** [sorted(...)] of named things, by name; equal names keep their order. *)
Fixpoint insert_by_name {A : Type} (x : str * A) (l : list (str * A)) : list (str * A) :=
  match l with
  | [] => [x]
  | y :: r => if str_leb (fst x) (fst y) then x :: l else y :: insert_by_name x r
  end.

Definition sorted_by_name {A : Type} (l : list (str * A)) : list (str * A) :=
  fold_right insert_by_name [] l.

(** Recursively counts the tiles: [os.walk] visits every directory and
    [files] holds the names of its entries that are not directories. *)
Fixpoint get_tile_count (in_path : node) : nat :=
  match in_path with
  | File _ _ => 0
  | Dir _ entries =>
      length (filter (fun e => negb (is_dir (snd e)) && Py.endswith (fst e) gph) entries)
      + list_sum (map (fun e => let '(_, child) := e in get_tile_count child) entries)
  end.

(** ** The archive container (tarfile) *)

Definition BLOCKSIZE : nat := 512.
Definition RECORDSIZE : nat := BLOCKSIZE * 20.
Definition NUL : byte := Byte.x00.

(** The fields of a [tarfile.TarInfo] that the script sets or reads.
    [offset_data] is 0 until the member has a place in an archive. *)
Record TarInfo : Type := mkTarInfo {
  name : str;
  isdir : bool;
  size : nat;
  mtime : Z;
  offset_data : nat
}.

Definition at_offset (ti : TarInfo) (off : nat) : TarInfo :=
  {| name := name ti; isdir := isdir ti; size := size ti; mtime := mtime ti;
     offset_data := off |}.

(** A [TarFile]: the bytes of its file, and its table of members, each with
    the offset of its data.  A reader gets the table of the archive that the
    writer closed: [tarfile] reads back the headers it wrote. *)
Record TarFile : Type := mkTarFile {
  fileobj : list byte;
  members : list TarInfo
}.

(** Bytes that fill the last block of a member's data. *)
Definition padding (n : nat) : nat :=
  if n mod BLOCKSIZE =? 0 then 0 else BLOCKSIZE - n mod BLOCKSIZE.

(** A regular file object opened ['r+b'] or ['rb']: [seek(pos)] then
    [write(b)] or [read(n)].  A write overwrites in place and makes the file
    longer only when it runs past its end. *)
Definition file_write (f : list byte) (pos : nat) (b : list byte) : list byte :=
  firstn pos f ++ repeat NUL (pos - length f) ++ b ++ skipn (pos + length b) f.

Definition file_read (f : list byte) (pos n : nat) : list byte :=
  firstn n (skipn pos f).

(** What [tar.add(name, arcname, recursive=True)] adds, in order: the node
    itself, then for a directory its entries sorted by name, each under
    [os.path.join(arcname, entry)].  A directory has a header and no data.
    (Each entry is walked first and the walks are then put in the order of
    the names, which is the order [sorted(os.listdir(name))] visits them.) *)
Fixpoint add_list (n : node) (arcname : str) : list (TarInfo * option (list byte)) :=
  match n with
  | File mt data => [(mkTarInfo arcname false (length data) mt 0, Some data)]
  | Dir mt entries =>
      (mkTarInfo arcname true 0 mt 0, None)
      :: concat (map snd (sorted_by_name
           (map (fun e => let '(f, child) := e in
                          (f, add_list child (path_join arcname f))) entries)))
  end.

Section Tarfile.

(** The header block of a member, as [TarInfo.tobuf] lays it out; its
    content plays no part here, its length does: one block, which is what
    the format gives a member whose name and numbers fit the header's
    fields. *)
Variable tobuf : TarInfo -> list byte.

(** [tarfile.open(path, 'w')] *)
Definition tar_open_w : TarFile := {| fileobj := []; members := [] |}.

(** [tar.addfile(tarinfo, fileobj)]: the header, then [tarinfo.size] bytes
    of the file object, filled up to a whole block.  Without a file object
    only the header is written. *)
Definition addfile (tar : TarFile) (tarinfo : TarInfo) (data : option (list byte)) : TarFile :=
  let buf := tobuf tarinfo in
  {| fileobj :=
       fileobj tar ++ buf ++
       match data with
       | Some d => firstn (size tarinfo) d ++ repeat NUL (padding (size tarinfo))
       | None => []
       end;
     members :=
       members tar ++ [at_offset tarinfo (length (fileobj tar) + length buf)] |}.

Definition add (tar : TarFile) (n : node) (arcname : str) : TarFile :=
  fold_left (fun t m => addfile t (fst m) (snd m)) (add_list n arcname) tar.

(** [tar.close()] in write mode: two blocks of zeros, then zeros up to a
    whole record. *)
Definition close (tar : TarFile) : list byte :=
  let f := fileobj tar ++ repeat NUL (BLOCKSIZE * 2) in
  f ++ repeat NUL (if length f mod RECORDSIZE =? 0 then 0
                   else RECORDSIZE - length f mod RECORDSIZE).

End Tarfile.

(** ** The index *)

(** One entry of the index: [(member.offset_data, tile id, member.size)]. *)
Definition index_entry : Type := (nat * Z * nat)%type.

(** [struct.pack('<QLL', *entry)]: little-endian, no padding; an argument
    outside its field's range raises [struct.error]. *)
Definition pack_QLL (entry : index_entry) : result (list byte) :=
  let '(offset, tile_id, sz) := entry in
  if ((Z.of_nat offset <? 2 ^ 64) && (0 <=? tile_id) && (tile_id <? 2 ^ 32)
      && (Z.of_nat sz <? 2 ^ 32))%Z
  then Ok (le_split 8 (Z.of_nat offset) ++ le_split 4 tile_id ++ le_split 4 (Z.of_nat sz))
  else Raise StructError.

(** The loop over [tar.getmembers()] that fills [index]: every member whose
    name ends in ['.gph'] gives one entry; the first name that
    [get_tile_id] rejects ends the loop with its exception. *)
Fixpoint build_index (ms : list TarInfo) : result (list index_entry) :=
  match ms with
  | [] => Ok []
  | member :: rest =>
      if Py.endswith (name member) gph then
        match get_tile_id (name member) with
        | Raise e => Raise e
        | Ok tile_id =>
            match build_index rest with
            | Raise e => Raise e
            | Ok index => Ok ((offset_data member, tile_id, size member) :: index)
            end
        end
      else build_index rest
  end.

(** The loop that writes the index back, from position [pos] of the open
    archive file: one [tar.write(struct.pack(...))] per entry.  What was
    written before an entry fails to pack stays written. *)
Fixpoint write_index (f : list byte) (pos : nat) (index : list index_entry)
  : result unit * list byte :=
  match index with
  | [] => (Ok tt, f)
  | entry :: rest =>
      match pack_QLL entry with
      | Raise e => (Raise e, f)
      | Ok b => write_index (file_write f pos b) (pos + length b) rest
      end
  end.

(** ** The tile header *)

(** [TileHeader]: a 64-bit word with the bit fields [nodecount_:21],
    [directededgecount_:21], [predictedspeeds_count_:21], [spare1_:1], the
    first field in the lowest bits (the layout of a little-endian host).
    [readinto] copies the bytes it is given into the zeroed structure: bytes
    that are missing stay zero. *)
Definition TileHeader_sizeof : nat := 8.

Definition directededgecount_ (b : list byte) : Z :=
  Z.land (Z.shiftr (le_combine (firstn TileHeader_sizeof b)) 21) (Z.ones 21).

(** ** create_extracts *)

Inductive outcome : Type :=
| Returned                (* the function returns to its caller *)
| Exit (code : Z)         (* sys.exit(code) *)
| Raised (e : exn)        (* an exception leaves the function *)
| Unmodelled.             (* tarfile reads an archive with an overwritten header *)

Section Script.

Variable tobuf : TarInfo -> list byte.
(** [int(time())] at the i-th call of a run *)
Variable time : nat -> Z.

Definition index_fd_initial (index_size : nat) : list byte :=
  repeat Byte.x30 index_size.     (* b'0' * index_size *)

(** First add the index file, then the tile dir to the tarfile. *)
Definition reservation_pass (tiles : node) : TarFile :=
  let tiles_count := get_tile_count tiles in
  let index_size := INDEX_BIN_SIZE * tiles_count in
  let index_fd := index_fd_initial index_size in
  let tar := tar_open_w in
  let tarinfo := mkTarInfo INDEX_FILE false index_size (time 0) 0 in
  let tar := addfile tobuf tar tarinfo (Some index_fd) in
  add tobuf tar tiles [].

(** The traffic tile of one member of the primary archive, read through
    the file object [in_fileobj] of that archive. *)
Definition traffic_tile (now : Z) (in_fileobj : list byte) (tile_in : TarInfo)
  : TarInfo * option (list byte) :=
  let b := file_read in_fileobj (offset_data tile_in + GRAPHTILE_SKIP_BYTES)
                     TileHeader_sizeof in
  let sz := TRAFFIC_HEADER_SIZE
            + TRAFFIC_SPEED_SIZE * Z.to_nat (directededgecount_ b) in
  (mkTarInfo (name tile_in) false sz now 0, Some (repeat NUL sz)).

(** The loop over the members of the primary archive; [clock] counts the
    calls of [time()] so far. *)
Fixpoint traffic_tiles (clock : nat) (in_fileobj : list byte) (ms : list TarInfo)
  : list (TarInfo * option (list byte)) :=
  match ms with
  | [] => []
  | tile_in :: rest =>
      if negb (Py.endswith (name tile_in) gph)
      then traffic_tiles clock in_fileobj rest
      else traffic_tile (time clock) in_fileobj tile_in
           :: traffic_tiles (S clock) in_fileobj rest
  end.

Definition traffic_pass (index_size : nat) (in_fileobj : list byte)
           (ms : list TarInfo) : TarFile :=
  let index_fd := index_fd_initial index_size in   (* index_fd.seek(0) *)
  let tar_traffic := tar_open_w in
  let tarinfo := mkTarInfo (s "index.bin") false index_size (time 1) 0 in
  let tar_traffic := addfile tobuf tar_traffic tarinfo (Some index_fd) in
  fold_left (fun t m => addfile tobuf t (fst m) (snd m))
            (traffic_tiles 2 in_fileobj ms) tar_traffic.

(** Actually creates the tar ball.  [traffic_fp_bound] says whether the
    module has a global named [traffic_fp], which the last statement
    reads: the [__main__] block binds it, a caller of the function alone
    does not. *)
Definition create_extracts (fs : FS) (do_traffic : bool) (traffic_fp_bound : bool)
  : outcome * FS :=
  match tile_dir fs with
  | None => (Exit 1, fs)
  | Some (File _ _) => (Exit 1, fs)
  | Some (Dir _ _ as tiles) =>
      let tiles_count := get_tile_count tiles in
      if tiles_count =? 0 then (Exit 1, fs)
      else
        let index_size := INDEX_BIN_SIZE * tiles_count in
        let written := reservation_pass tiles in
        let archive := close written in
        let fs1 := mkFS (tile_dir fs) (Some archive) (traffic_file fs) in
        (* get the offset and size from the tarred tile members *)
        match build_index (members written) with
        | Raise e => (Raised e, fs1)
        | Ok index =>
            (* write back the actual index info *)
            let (r, patched) := write_index archive BLOCKSIZE index in
            let fs2 := mkFS (tile_dir fs) (Some patched) (traffic_file fs) in
            match r with
            | Raise e => (Raised e, fs2)
            | Ok _ =>
                if negb do_traffic then (Exit 0, fs2)
                else if INDEX_BIN_SIZE * length index <=? index_size + padding index_size
                then
                  let tar_traffic := traffic_pass index_size patched (members written) in
                  let fs3 := mkFS (tile_dir fs) (Some patched)
                                  (Some (close tar_traffic)) in
                  if traffic_fp_bound then (Returned, fs3)
                  else (Raised NameError, fs3)
                else (Unmodelled, fs2)
            end
        end
  end.



End Script.

(** ** Names that end in the tile extension *)

Lemma endswith_iff (a suffix : str) :
  Py.endswith a suffix = true <-> exists p, a = p ++ suffix.
Proof.
  unfold Py.endswith. split.
  - intros H. apply andb_true_iff in H. destruct H as [_ H].
    destruct (list_eq_dec ascii_dec (skipn (length a - length suffix) a) suffix)
      as [E|]; [|discriminate].
    exists (firstn (length a - length suffix) a).
    pose proof (firstn_skipn (length a - length suffix) a) as F.
    rewrite E in F. now symmetry.
  - intros [p ->]. rewrite length_app. apply andb_true_iff. split.
    + apply Nat.leb_le. lia.
    + replace (length p + length suffix - length suffix) with (length p) by lia.
      rewrite skipn_app, skipn_all, Nat.sub_diag. simpl.
      destruct (list_eq_dec ascii_dec suffix suffix); congruence.
Qed.

(** A separator just before the last component keeps the extension test on
    that component: the extension holds no separator. *)
Lemma endswith_gph_sep (a b : str) :
  Py.endswith (a ++ Py.slash :: b) gph = Py.endswith b gph.
Proof.
  apply eq_true_iff_eq. rewrite !endswith_iff. split.
  - intros [p E]. apply (f_equal (@rev ascii)) in E.
    rewrite !rev_app_distr in E. simpl in E.
    destruct (rev b) as [|x1 [|x2 [|x3 [|x4 r]]]] eqn:Eb; simpl in E;
      try discriminate E.
    injection E as -> -> -> -> _.
    exists (rev r). apply (f_equal (@rev ascii)) in Eb.
    rewrite rev_involutive in Eb. rewrite Eb. simpl.
    now rewrite <- !app_assoc.
  - intros [p ->]. exists (a ++ Py.slash :: p). now rewrite <- app_assoc.
Qed.

Lemma endswith_path_join (a b : str) :
  Py.endswith (path_join a b) gph = Py.endswith b gph.
Proof.
  assert (J : Py.endswith (if (length a =? 0) || Py.endswith a [Py.slash]
                           then a ++ b else a ++ [Py.slash] ++ b) gph
              = Py.endswith b gph).
  { destruct ((length a =? 0) || Py.endswith a [Py.slash]) eqn:E.
    - apply orb_true_iff in E. destruct E as [E|E].
      + apply Nat.eqb_eq in E. destruct a; [reflexivity|discriminate].
      + apply endswith_iff in E. destruct E as [p ->].
        rewrite <- app_assoc. apply endswith_gph_sep.
    - apply endswith_gph_sep. }
  unfold path_join. destruct b as [|c r]; [exact J|].
  destruct (Ascii.eqb c Py.slash); [reflexivity|exact J].
Qed.

(** ** Counting tile members *)

Definition is_tile (ti : TarInfo) : bool := Py.endswith (name ti) gph.

Definition tile_members (l : list (TarInfo * option (list byte))) : nat :=
  length (filter (fun m => is_tile (fst m)) l).


Fixpoint node_ind' (P : node -> Prop)
  (HF : forall mt d, P (File mt d))
  (HD : forall mt es, Forall (fun e => P (snd e)) es -> P (Dir mt es))
  (n : node) : P n :=
  match n with
  | File mt d => HF mt d
  | Dir mt es =>
      HD mt es
         ((fix go (l : list (str * node)) : Forall (fun e => P (snd e)) l :=
             match l with
             | [] => Forall_nil _
             | e :: r => Forall_cons e (node_ind' P HF HD (snd e)) (go r)
             end) es)
  end.

Section Sorted.
Context {A : Type} (h : A -> nat).

Lemma sum_insert_by_name (x : str * A) (l : list (str * A)) :
  list_sum (map (fun e => h (snd e)) (insert_by_name x l))
  = h (snd x) + list_sum (map (fun e => h (snd e)) l).
Proof.
  induction l as [|y r IH]; simpl; [reflexivity|].
  destruct (str_leb (fst x) (fst y)); simpl; [reflexivity|].
  rewrite IH. lia.
Qed.

Lemma sum_sorted_by_name (l : list (str * A)) :
  list_sum (map (fun e => h (snd e)) (sorted_by_name l))
  = list_sum (map (fun e => h (snd e)) l).
Proof.
  induction l as [|x r IH]; [reflexivity|].
  simpl. rewrite sum_insert_by_name. now rewrite IH.
Qed.
End Sorted.

Lemma tile_members_app (l1 l2 : list (TarInfo * option (list byte))) :
  tile_members (l1 ++ l2) = tile_members l1 + tile_members l2.
Proof. unfold tile_members. now rewrite filter_app, length_app. Qed.

Lemma tile_members_concat {K : Type} (ls : list (K * list (TarInfo * option (list byte)))) :
  tile_members (concat (map snd ls)) = list_sum (map (fun e => tile_members (snd e)) ls).
Proof.
  induction ls as [|x r IH]; [reflexivity|].
  simpl. now rewrite tile_members_app, IH.
Qed.



(** ** Raw file access *)



Lemma firstn_before (A X : list byte) : firstn (length A) (A ++ X) = A.
Proof. rewrite firstn_app, firstn_all, Nat.sub_diag, firstn_O. apply app_nil_r. Qed.

Lemma skipn_after (A B C : list byte) :
  skipn (length A + length B) (A ++ B ++ C) = C.
Proof.
  rewrite app_assoc, <- length_app.
  now rewrite skipn_app, skipn_all, Nat.sub_diag.
Qed.

(** ** The bytes the index loop writes *)





(** ** The layout of a written archive *)

Section Layout.

Variable tobuf : TarInfo -> list byte.

(** The bytes of one member: its header, then its data and the filling. *)
Definition member_bytes (m : TarInfo * option (list byte)) : list byte :=
  tobuf (fst m) ++
  match snd m with
  | Some d => firstn (size (fst m)) d ++ repeat NUL (padding (size (fst m)))
  | None => []
  end.

(** The table of the members written from offset [off] on. *)
Fixpoint layout (off : nat) (l : list (TarInfo * option (list byte))) : list TarInfo :=
  match l with
  | [] => []
  | m :: r =>
      at_offset (fst m) (off + length (tobuf (fst m)))
      :: layout (off + length (member_bytes m)) r
  end.

Lemma addfile_fold (l : list (TarInfo * option (list byte))) :
  forall tar,
    fold_left (fun t m => addfile tobuf t (fst m) (snd m)) l tar
    = {| fileobj := fileobj tar ++ concat (map member_bytes l);
         members := members tar ++ layout (length (fileobj tar)) l |}.
Proof.
  induction l as [|m r IH]; intros tar; cbn [fold_left map concat layout].
  - destruct tar. cbn [fileobj members]. now rewrite !app_nil_r.
  - rewrite IH. unfold addfile at 1 2 3. cbn [fileobj members].
    f_equal.
    + unfold member_bytes. now rewrite <- !app_assoc.
    + rewrite <- app_assoc. cbn [app]. do 2 f_equal.
      unfold member_bytes. now rewrite !length_app.
Qed.

Lemma layout_names (l : list (TarInfo * option (list byte))) :
  forall off, map name (layout off l) = map (fun m => name (fst m)) l.
Proof.
  induction l as [|m r IH]; intros off; [reflexivity|].
  cbn [layout map]. now rewrite IH.
Qed.

Lemma layout_tiles (l : list (TarInfo * option (list byte))) :
  forall off, length (filter is_tile (layout off l)) = tile_members l.
Proof.
  unfold tile_members.
  induction l as [|m r IH]; intros off; [reflexivity|].
  cbn [layout filter].
  change (is_tile (at_offset (fst m) (off + length (tobuf (fst m)))))
    with (is_tile (fst m)).
  destruct (is_tile (fst m)); cbn [length]; now rewrite IH.
Qed.


Hypothesis tobuf_length : forall ti, length (tobuf ti) = BLOCKSIZE.



End Layout.

(** ** The passes of create_extracts *)

Lemma build_index_length (ms : list TarInfo) :
  forall index, build_index ms = Ok index ->
                length index = length (filter is_tile ms).
Proof.
  induction ms as [|m r IH]; intros index; cbn [build_index filter].
  - intros [= <-]. reflexivity.
  - unfold is_tile at 1. destruct (Py.endswith (name m) gph).
    + destruct (get_tile_id (name m)); [|discriminate].
      destruct (build_index r) as [index'|]; [|discriminate].
      intros [= <-]. cbn [length]. now rewrite (IH index' eq_refl).
    + apply IH.
Qed.


Section Passes.

Variable tobuf : TarInfo -> list byte.
Variable time : nat -> Z.


Definition index_size_of (tiles : node) : nat :=
  INDEX_BIN_SIZE * get_tile_count tiles.

(** The member [index.bin] as the reservation pass declares it. *)
Definition index_tarinfo (tiles : node) : TarInfo :=
  mkTarInfo INDEX_FILE false (index_size_of tiles) (time 0) 0.

(** The data area of [index.bin]: its bytes and the filling after them. *)
Definition index_area (tiles : node) : list byte :=
  index_fd_initial (index_size_of tiles) ++ repeat NUL (padding (index_size_of tiles)).

Lemma index_fd_initial_length (n : nat) : length (index_fd_initial n) = n.
Proof. apply repeat_length. Qed.


Lemma reservation_pass_eq (tiles : node) :
  reservation_pass tobuf time tiles
  = {| fileobj := tobuf (index_tarinfo tiles) ++ index_area tiles
                  ++ concat (map (member_bytes tobuf) (add_list tiles []));
       members := at_offset (index_tarinfo tiles) (length (tobuf (index_tarinfo tiles)))
                  :: layout tobuf (length (tobuf (index_tarinfo tiles) ++ index_area tiles))
                            (add_list tiles []) |}.
Proof.
  unfold reservation_pass, add. rewrite addfile_fold.
  unfold addfile, tar_open_w. cbn [fileobj members app length Nat.add size].
  fold (index_size_of tiles). fold (index_tarinfo tiles).
  rewrite (firstn_all2 (n := index_size_of tiles))
    by (rewrite index_fd_initial_length; lia).
  fold (index_area tiles). now rewrite <- app_assoc.
Qed.


Lemma index_file_is_no_tile (tiles : node) (off : nat) :
  is_tile (at_offset (index_tarinfo tiles) off) = false.
Proof. reflexivity. Qed.

Lemma reservation_tiles (tiles : node) :
  length (filter is_tile (members (reservation_pass tobuf time tiles)))
  = tile_members (add_list tiles []).
Proof.
  rewrite reservation_pass_eq. cbn [members filter].
  rewrite index_file_is_no_tile. apply layout_tiles.
Qed.

Hypothesis tobuf_length : forall ti, length (tobuf ti) = BLOCKSIZE.



End Passes.

(** ** Which exceptions the passes raise *)



(** ** Runs that complete their passes *)

Section Runs.

Variable tobuf : TarInfo -> list byte.
Variable time : nat -> Z.
Hypothesis tobuf_length : forall ti, length (tobuf ti) = BLOCKSIZE.










(** ** The traffic pass *)


















Ltac run_cases :=
  repeat match goal with
         | |- context [match ?x with _ => _ end] => destruct x eqn:?
         end.


(** C10: called without [do_traffic], the function never returns to its
    caller; when the index has been written back, it ends the process with
    [sys.exit(0)], the patched archive on disk. *)
Theorem no_traffic_call_exits (fs : FS) (bound : bool) :
  fst (create_extracts tobuf time fs false bound) <> Returned
  /\ (forall mt es index patched,
         tile_dir fs = Some (Dir mt es) ->
         get_tile_count (Dir mt es) <> 0 ->
         build_index (members (reservation_pass tobuf time (Dir mt es))) = Ok index ->
         write_index (close (reservation_pass tobuf time (Dir mt es))) BLOCKSIZE index
         = (Ok tt, patched) ->
         create_extracts tobuf time fs false bound
         = (Exit 0, mkFS (tile_dir fs) (Some patched) (traffic_file fs))).
Proof.
  split.
  - unfold create_extracts. cbv zeta. run_cases; cbn [fst negb]; discriminate.
  - intros mt es index patched Ht Hc Hi Hw. unfold create_extracts.
    rewrite Ht. apply Nat.eqb_neq in Hc. rewrite Hc. cbv zeta.
    rewrite Hi, Hw. reflexivity.
Qed.

End Runs.

(** ** Concrete runs *)

(** A header block for the examples: the name of the member, filled up
    with zeros to one block. *)
Definition ex_tobuf (ti : TarInfo) : list byte :=
  firstn BLOCKSIZE (map byte_of_ascii (name ti) ++ repeat NUL BLOCKSIZE).


Definition ex_time (i : nat) : Z := 1700000000 + Z.of_nat i.

(** The tile directory of the end-to-end scenario: [0/001.gph] of 10 bytes
    and [1/002/003.gph] of 20 bytes. *)
Definition ex_tiles : node :=
  Dir 0 [ (s "1", Dir 0 [ (s "002", Dir 0 [ (s "003.gph", File 0 (repeat Byte.x01 20)) ]) ]);
          (s "0", Dir 0 [ (s "001.gph", File 0 (repeat Byte.x01 10)) ]) ].

Definition ex_fs : FS := mkFS (Some ex_tiles) None None.

(** A tile with a whole header: 7 nodes, 5 directed edges, 3 predicted
    speeds. *)
Definition ex_header_word : Z := 7 + 5 * 2 ^ 21 + 3 * 2 ^ 42.




(** A directory named like a tile, beside one tile. *)
Definition ex_tiles_dir : node :=
  Dir 0 [ (s "0", Dir 0 [ (s "1.gph", File 0 (repeat Byte.x01 10));
                          (s "7.gph", Dir 0 []) ]) ].






Example ex_members :
  map (fun m => (name m, size m, offset_data m))
      (members (reservation_pass ex_tobuf ex_time ex_tiles))
  = [ (s "index.bin", 32, 512); ([], 0, 1536); (s "0", 0, 2048);
      (s "0/001.gph", 10, 2560); (s "1", 0, 3584); (s "1/002", 0, 4096);
      (s "1/002/003.gph", 20, 4608) ].
Proof. vm_compute. reflexivity. Qed.


Example ex_run_length :
  option_map (@length byte)
             (extract_file (snd (create_extracts ex_tobuf ex_time ex_fs false false)))
  = Some RECORDSIZE.
Proof. vm_compute. reflexivity. Qed.

(** ** The claims on the concrete runs *)












(** * Further properties of the script *)

From coqutil Require Import Z.bitblast.

(** ** Identifiers: what get_tile_id keeps and what it drops *)

Lemma digit_range (c : ascii) (d : Z) : Py.digit c = Some d -> (0 <= d <= 9)%Z.
Proof.
  unfold Py.digit.
  destruct ((48 <=? nat_of_ascii c) && (nat_of_ascii c <=? 57)) eqn:E;
    [|discriminate].
  apply andb_true_iff in E. destruct E as [E1 E2].
  apply Nat.leb_le in E1. apply Nat.leb_le in E2. intros [= <-]. lia.
Qed.

Lemma decimal_step_nonneg (a : str) :
  forall acc : Z,
    (0 <= acc)%Z ->
    (0 <= fold_left
            (fun acc c => 10 * acc + match Py.digit c with
                                     | Some d => d
                                     | None => 0
                                     end) a acc)%Z.
Proof.
  induction a as [|c r IH]; intros acc Hacc; cbn [fold_left]; [exact Hacc|].
  apply IH. destruct (Py.digit c) as [d|] eqn:E.
  - apply digit_range in E. lia.
  - lia.
Qed.

Lemma decimal_nonneg (a : str) : (0 <= decimal a)%Z.
Proof. apply decimal_step_nonneg. lia. Qed.

Lemma level_bits (l i : Z) :
  (0 <= l <= 7)%Z -> Z.land (Z.lor l (Z.shiftl i 3)) 7 = l.
Proof.
  intros H. transitivity (Z.land l (Z.ones 3)).
  - change 7%Z with (Z.ones 3). Z.bitblast.
    rewrite (Z.testbit_neg_r i) by lia. now rewrite Bool.orb_false_r.
  - rewrite Z.land_ones by lia. apply Z.mod_small. simpl. lia.
Qed.

Lemma index_bits (l i : Z) :
  (0 <= l <= 7)%Z -> Z.shiftr (Z.lor l (Z.shiftl i 3)) 3 = i.
Proof.
  intros H. rewrite Z.shiftr_lor, Z.shiftr_shiftl_l by lia.
  rewrite Z.shiftr_div_pow2 by lia. rewrite Z.div_small by (simpl; lia).
  simpl. rewrite ?Z.shiftl_0_r. reflexivity.
Qed.

(** X1: for a path written in decimal digits whose level is at most 7,
    [get_tile_id] returns an identifier from which the level comes back as
    [id & 7] and the index as [id >> 3]. *)
Theorem tile_id_round_trip (level : str) (segments : list str) :
  all_digits level = true ->
  (decimal level <= 7)%Z ->
  Forall (fun p => forallb isdigit p = true) segments ->
  concat segments <> [] ->
  exists id,
    get_tile_id (tile_path level segments) = Ok id
    /\ Z.land id 7 = decimal level
    /\ Z.shiftr id 3 = decimal (concat segments)
    /\ (0 <= id)%Z.
Proof.
  intros Hl H7 Hs Hne.
  pose proof (decimal_nonneg level) as H0.
  pose proof (decimal_nonneg (concat segments)) as Hi.
  eexists. split; [now apply get_tile_id_decimal|].
  split; [apply level_bits; lia|]. split; [apply index_bits; lia|].
  apply Z.lor_nonneg. split; [lia|]. now apply Z.shiftl_nonneg.
Qed.

Lemma tile_id_round_trip_witness :
  exists id,
    get_tile_id (s "2/000/816/123.gph") = Ok id
    /\ Z.land id 7 = 2%Z /\ Z.shiftr id 3 = 816123%Z /\ (0 <= id)%Z.
Proof.
  refine (tile_id_round_trip (s "2") [s "000"; s "816"; s "123"] eq_refl _ _ _).
  - vm_compute. discriminate.
  - repeat constructor.
  - discriminate.
Defined.

(** X2: the identifier depends on the digits after the level, not on where
    the separators stand between them: ["1/002/003.gph"] and
    ["1/0/02003.gph"] have the same identifier. *)
Theorem tile_id_ignores_grouping (level : str) (segs1 segs2 : list str) :
  ~ In Py.slash level ->
  Forall (fun p => ~ In Py.slash p) segs1 ->
  Forall (fun p => ~ In Py.slash p) segs2 ->
  concat segs1 = concat segs2 ->
  get_tile_id (tile_path level segs1) = get_tile_id (tile_path level segs2).
Proof.
  intros Hl H1 H2 E.
  rewrite !get_tile_id_tile_path by assumption. now rewrite E.
Qed.

Lemma tile_id_ignores_grouping_witness :
  get_tile_id (s "1/002/003.gph") = get_tile_id (s "1/0/02003.gph").
Proof.
  refine (tile_id_ignores_grouping (s "1") [s "002"; s "003"] [s "0"; s "02003"]
            _ _ _ eq_refl).
  - vm_compute. intuition discriminate.
  - repeat constructor; vm_compute; intuition discriminate.
  - repeat constructor; vm_compute; intuition discriminate.
Defined.

(** X3: the last four characters of a path are dropped unread, whatever
    they are, and a path of at most four characters is rejected. *)
Theorem tile_id_ignores_extension (a e1 e2 p : str) :
  (length e1 = 4 -> length e2 = 4 ->
   get_tile_id (a ++ e1) = get_tile_id (a ++ e2))
  /\ (length p <= 4 -> get_tile_id p = Raise ValueError).
Proof.
  split.
  - intros H1 H2. unfold get_tile_id.
    assert (E1 : Py.drop_last 4 (a ++ e1) = a)
      by (rewrite <- H1; apply drop_last_app).
    assert (E2 : Py.drop_last 4 (a ++ e2) = a)
      by (rewrite <- H2; apply drop_last_app).
    now rewrite E1, E2.
  - intros H. unfold get_tile_id, Py.drop_last.
    replace (length p - 4) with 0 by lia. reflexivity.
Qed.

(** X4: a level is not kept within its three bits: the bits of a level
    above 7 go into the index, so that the path has the identifier of the
    path with level [l & 7] and index [i | (l >> 3)]. *)
Theorem level_spills_into_index (level level' : str) (segs segs' : list str)
        (l i : Z) :
  ~ In Py.slash level -> ~ In Py.slash level' ->
  Forall (fun p => ~ In Py.slash p) segs ->
  Forall (fun p => ~ In Py.slash p) segs' ->
  Py.int level = Some l ->
  Py.int (concat segs) = Some i ->
  Py.int level' = Some (Z.land l 7) ->
  Py.int (concat segs') = Some (Z.lor i (Z.shiftr l 3)) ->
  get_tile_id (tile_path level segs) = get_tile_id (tile_path level' segs').
Proof.
  intros Hl Hl' Hs Hs' El Ei El' Ei'.
  rewrite !get_tile_id_tile_path by assumption.
  rewrite El, Ei, El', Ei'. f_equal.
  change 7%Z with (Z.ones 3). Z.bitblast.
Qed.

Lemma level_spills_into_index_witness :
  get_tile_id (s "9/2.gph") = get_tile_id (s "1/3.gph").
Proof.
  refine (level_spills_into_index (s "9") (s "1") [s "2"] [s "3"] 9 2
            _ _ _ _ eq_refl eq_refl eq_refl eq_refl).
  - vm_compute. intuition discriminate.
  - vm_compute. intuition discriminate.
  - repeat constructor; vm_compute; intuition discriminate.
  - repeat constructor; vm_compute; intuition discriminate.
Defined.

(** ** The binary layout of an index entry *)

Lemma pack_QLL_ok (offset : nat) (tile_id : Z) (sz : nat) (b : list byte) :
  pack_QLL (offset, tile_id, sz) = Ok b ->
  b = le_split 8 (Z.of_nat offset) ++ le_split 4 tile_id ++ le_split 4 (Z.of_nat sz)
  /\ (Z.of_nat offset < 2 ^ 64)%Z
  /\ (0 <= tile_id < 2 ^ 32)%Z
  /\ (Z.of_nat sz < 2 ^ 32)%Z.
Proof.
  unfold pack_QLL.
  destruct ((Z.of_nat offset <? 2 ^ 64)%Z) eqn:E1; [|discriminate].
  destruct ((0 <=? tile_id)%Z) eqn:E2; [|discriminate].
  destruct ((tile_id <? 2 ^ 32)%Z) eqn:E3; [|discriminate].
  destruct ((Z.of_nat sz <? 2 ^ 32)%Z) eqn:E4; [|discriminate].
  cbn [andb]. intros H.
  apply Z.ltb_lt in E1, E3, E4. apply Z.leb_le in E2.
  split; [congruence|]. auto.
Qed.

Lemma le_combine_split_small (n : nat) (z : Z) :
  (0 <= z < 2 ^ (Z.of_nat n * 8))%Z -> le_combine (le_split n z) = z.
Proof. intros H. rewrite le_combine_split. now apply Z.mod_small. Qed.

(** X5: the 16 bytes of a packed entry hold its three numbers with no
    padding between them: the offset in bytes 0 to 7, the tile id in bytes 8
    to 11 and the size in bytes 12 to 15, each little-endian, so that each
    number reads back from its bytes. *)
Theorem pack_QLL_fields (offset : nat) (tile_id : Z) (sz : nat) (b : list byte) :
  pack_QLL (offset, tile_id, sz) = Ok b ->
  length b = 16
  /\ le_combine (firstn 8 b) = Z.of_nat offset
  /\ le_combine (firstn 4 (skipn 8 b)) = tile_id
  /\ le_combine (firstn 4 (skipn 12 b)) = Z.of_nat sz.
Proof.
  intros H. destruct (pack_QLL_ok _ _ _ _ H) as (-> & Ho & Hi & Hs).
  set (A := le_split 8 (Z.of_nat offset)).
  set (B := le_split 4 tile_id).
  set (C := le_split 4 (Z.of_nat sz)).
  assert (LA : length A = 8) by apply length_le_split.
  assert (LB : length B = 4) by apply length_le_split.
  assert (LC : length C = 4) by apply length_le_split.
  split; [rewrite !length_app; lia|].
  split; [|split].
  - rewrite <- LA at 1. rewrite firstn_before.
    apply le_combine_split_small. change (2 ^ (Z.of_nat 8 * 8))%Z with (2 ^ 64)%Z. lia.
  - replace (skipn 8 (A ++ B ++ C)) with (B ++ C)
      by (rewrite <- LA at 1; rewrite skipn_app, skipn_all, Nat.sub_diag; reflexivity).
    rewrite <- LB at 1. rewrite firstn_before.
    apply le_combine_split_small. change (2 ^ (Z.of_nat 4 * 8))%Z with (2 ^ 32)%Z. lia.
  - replace 12 with (length A + length B) by lia.
    rewrite skipn_after. rewrite <- LC at 1. rewrite firstn_all.
    apply le_combine_split_small. change (2 ^ (Z.of_nat 4 * 8))%Z with (2 ^ 32)%Z. lia.
Qed.

Lemma pack_QLL_fields_witness :
  le_combine (firstn 4 (skipn 8 (le_split 8 2560 ++ le_split 4 16025 ++ le_split 4 20)))
  = 16025%Z.
Proof.
  exact (proj1 (proj2 (proj2
           (pack_QLL_fields 2560 16025 20
              (le_split 8 2560 ++ le_split 4 16025 ++ le_split 4 20)
              ltac:(vm_compute; reflexivity))))).
Defined.

(** X6: the tile id has 32 bits in an entry.  With a level within its three
    bits, the identifier [level | (index << 3)] packs exactly when the index
    is below [2^29]; at or above it [struct.pack] raises. *)
Theorem tile_index_limit (offset sz : nat) (l i : Z) :
  (Z.of_nat offset < 2 ^ 64)%Z ->
  (Z.of_nat sz < 2 ^ 32)%Z ->
  (0 <= l <= 7)%Z ->
  (0 <= i)%Z ->
  (raises (pack_QLL (offset, Z.lor l (Z.shiftl i 3), sz)) = false <-> (i < 2 ^ 29)%Z)
  /\ ((2 ^ 29 <= i)%Z ->
      pack_QLL (offset, Z.lor l (Z.shiftl i 3), sz) = Raise StructError).
Proof.
  intros Ho Hs Hl Hi.
  set (id := Z.lor l (Z.shiftl i 3)).
  assert (Hid : (0 <= id)%Z).
  { apply Z.lor_nonneg. split; [lia|]. now apply Z.shiftl_nonneg. }
  assert (Hdiv : (id / 8 = i)%Z).
  { pose proof (index_bits l i Hl) as E. fold id in E.
    rewrite Z.shiftr_div_pow2 in E by lia. exact E. }
  assert (Hlt : (id < 2 ^ 32 <-> i < 2 ^ 29)%Z).
  { change (2 ^ 32)%Z with 4294967296%Z. change (2 ^ 29)%Z with 536870912%Z.
    rewrite <- Hdiv. split; intros H; Z.div_mod_to_equations; lia. }
  unfold pack_QLL.
  apply Z.ltb_lt in Ho, Hs. apply Z.leb_le in Hid. rewrite Ho, Hs, Hid.
  cbn [andb]. rewrite Bool.andb_true_r.
  destruct (id <? 2 ^ 32)%Z eqn:E; cbn [raises].
  - apply Z.ltb_lt in E. split.
    + split; [intros _; now apply Hlt | reflexivity].
    + intros H. apply Hlt in E. lia.
  - apply Z.ltb_ge in E. split.
    + split; [discriminate|]. intros H. apply Hlt in H. lia.
    + reflexivity.
Qed.

Lemma tile_index_limit_witness :
  pack_QLL (2560, Z.lor 2 (Z.shiftl 536870912 3), 10) = Raise StructError.
Proof.
  refine (proj2 (tile_index_limit 2560 10 2 536870912 _ _ _ _) _);
    vm_compute; intuition discriminate.
Defined.

(** ** The bit fields of the tile header *)

(** The other fields of [TileHeader], read from the 8 bytes like
    [directededgecount_]. *)
Definition nodecount_ (b : list byte) : Z :=
  Z.land (le_combine (firstn TileHeader_sizeof b)) (Z.ones 21).

Definition predictedspeeds_count_ (b : list byte) : Z :=
  Z.land (Z.shiftr (le_combine (firstn TileHeader_sizeof b)) 42) (Z.ones 21).

Definition spare1_ (b : list byte) : Z :=
  Z.land (Z.shiftr (le_combine (firstn TileHeader_sizeof b)) 63) (Z.ones 1).

(** X7: a header word put together from a node count, a directed edge
    count and a predicted speeds count of 21 bits each and a spare bit gives
    each field back; [directededgecount_] does not see the other three. *)
Theorem TileHeader_fields (n d p sp : Z) :
  (0 <= n < 2 ^ 21)%Z -> (0 <= d < 2 ^ 21)%Z -> (0 <= p < 2 ^ 21)%Z ->
  (0 <= sp < 2)%Z ->
  let b := le_split 8 (n + d * 2 ^ 21 + p * 2 ^ 42 + sp * 2 ^ 63) in
  nodecount_ b = n
  /\ directededgecount_ b = d
  /\ predictedspeeds_count_ b = p
  /\ spare1_ b = sp.
Proof.
  intros Hn Hd Hp Hs. cbv zeta.
  unfold nodecount_, directededgecount_, predictedspeeds_count_, spare1_.
  rewrite (firstn_all2 (n := TileHeader_sizeof))
    by (rewrite length_le_split; unfold TileHeader_sizeof; lia).
  change (2 ^ 21)%Z with 2097152%Z in *. change (2 ^ 42)%Z with 4398046511104%Z.
  change (2 ^ 63)%Z with 9223372036854775808%Z.
  rewrite le_combine_split_small
    by (change (2 ^ (Z.of_nat 8 * 8))%Z with 18446744073709551616%Z; lia).
  rewrite !Z.land_ones, !Z.shiftr_div_pow2 by lia.
  change (2 ^ 21)%Z with 2097152%Z. change (2 ^ 42)%Z with 4398046511104%Z.
  change (2 ^ 63)%Z with 9223372036854775808%Z. change (2 ^ 1)%Z with 2%Z.
  repeat split; Z.div_mod_to_equations; lia.
Qed.

Lemma TileHeader_fields_witness :
  directededgecount_ (le_split 8 ex_header_word) = 5%Z.
Proof.
  refine (proj1 (proj2 (TileHeader_fields 7 5 3 0 _ _ _ _))); vm_compute;
    intuition discriminate.
Defined.

(** X8: whatever the archive holds at the place that is read, a traffic
    tile has the name of its tile, at least the 32 bytes of the traffic
    header and at most [2^21 - 1] speed slots of 8 bytes after them, and
    only zero bytes. *)
Theorem traffic_tile_bounds (now : Z) (in_fileobj : list byte) (tile_in : TarInfo) :
  let tile := traffic_tile now in_fileobj tile_in in
  name (fst tile) = name tile_in
  /\ snd tile = Some (repeat NUL (size (fst tile)))
  /\ (32 <= Z.of_nat (size (fst tile)) <= 32 + 8 * (2 ^ 21 - 1))%Z
  /\ exists edges : Z,
      (0 <= edges < 2 ^ 21)%Z
      /\ Z.of_nat (size (fst tile))
         = (Z.of_nat TRAFFIC_HEADER_SIZE + Z.of_nat TRAFFIC_SPEED_SIZE * edges)%Z.
Proof.
  cbv zeta. unfold traffic_tile. cbn [fst snd name size].
  set (b := file_read in_fileobj (offset_data tile_in + GRAPHTILE_SKIP_BYTES)
                      TileHeader_sizeof).
  assert (H : (0 <= directededgecount_ b < 2 ^ 21)%Z).
  { unfold directededgecount_. rewrite Z.land_ones by lia.
    apply Z.mod_pos_bound. reflexivity. }
  change (2 ^ 21)%Z with 2097152%Z in *.
  split; [reflexivity|]. split; [reflexivity|].
  unfold TRAFFIC_HEADER_SIZE, TRAFFIC_SPEED_SIZE.
  split.
  - lia.
  - exists (directededgecount_ b). split; [exact H|lia].
Qed.

(** ** Tiles counted and tiles archived *)

From Stdlib Require Import Permutation.

(** Directories below the root whose name ends in ['.gph']. *)
Fixpoint tile_named_dirs (n : node) : nat :=
  match n with
  | File _ _ => 0
  | Dir _ entries =>
      length (filter (fun e => is_dir (snd e) && Py.endswith (fst e) gph) entries)
      + list_sum (map (fun e => let '(_, child) := e in tile_named_dirs child) entries)
  end.

Lemma tile_members_children_all (arcname : str) (es : list (str * node)) :
  Forall (fun e => forall arc,
            tile_members (add_list (snd e) arc)
            = (if Py.endswith arc gph then 1 else 0)
              + get_tile_count (snd e) + tile_named_dirs (snd e)) es ->
  list_sum (map (fun e => tile_members (snd e))
              (map (fun e => let '(f, child) := e in
                             (f, add_list child (path_join arcname f))) es))
  = (length (filter (fun e => negb (is_dir (snd e)) && Py.endswith (fst e) gph) es)
     + list_sum (map (fun e => let '(_, child) := e in get_tile_count child) es))
    + (length (filter (fun e => is_dir (snd e) && Py.endswith (fst e) gph) es)
       + list_sum (map (fun e => let '(_, child) := e in tile_named_dirs child) es)).
Proof.
  induction es as [|[f child] r IHr]; intros IH; [reflexivity|].
  inversion IH as [|? ? Hc Hr]; subst.
  cbn [map filter snd fst].
  repeat match goal with
         | |- context [list_sum (?x :: ?l)] =>
             change (list_sum (x :: l)) with (x + list_sum l)
         end.
  rewrite (IHr Hr). simpl in Hc. rewrite Hc.
  rewrite endswith_path_join.
  destruct (Py.endswith f gph); destruct (is_dir child); cbn [negb andb length]; lia.
Qed.

Lemma tile_members_add_list_all (n : node) :
  forall arcname,
    tile_members (add_list n arcname)
    = (if Py.endswith arcname gph then 1 else 0)
      + get_tile_count n + tile_named_dirs n.
Proof.
  induction n as [mt d | mt es IH] using node_ind'; intros arcname.
  - unfold tile_members, is_tile. simpl.
    destruct (Py.endswith arcname gph); reflexivity.
  - cbn [add_list get_tile_count tile_named_dirs].
    change (tile_members (?x :: ?l)) with (tile_members ([x] ++ l)).
    rewrite tile_members_app, tile_members_concat.
    rewrite (sum_sorted_by_name tile_members).
    rewrite (tile_members_children_all arcname es IH).
    unfold tile_members, is_tile. simpl.
    destruct (Py.endswith arcname gph); simpl; lia.
Qed.

(** X9: the index gets one entry for every tile that [get_tile_count]
    counted and one more for every directory whose name ends in ['.gph'],
    while [index.bin] is sized for the counted tiles alone. *)
Theorem index_entries_count (tobuf : TarInfo -> list byte) (time : nat -> Z)
        (tiles : node) (index : list index_entry) :
  build_index (members (reservation_pass tobuf time tiles)) = Ok index ->
  length index = get_tile_count tiles + tile_named_dirs tiles
  /\ option_map size (hd_error (members (reservation_pass tobuf time tiles)))
     = Some (INDEX_BIN_SIZE * get_tile_count tiles).
Proof.
  intros Hi. split.
  - rewrite (build_index_length _ _ Hi), reservation_tiles.
    rewrite tile_members_add_list_all. reflexivity.
  - rewrite reservation_pass_eq. reflexivity.
Qed.

Lemma index_entries_count_witness :
  exists index,
    build_index (members (reservation_pass ex_tobuf ex_time ex_tiles_dir)) = Ok index
    /\ length index = 1 + 1.
Proof.
  eexists. split; [vm_compute; reflexivity|].
  exact (proj1 (index_entries_count ex_tobuf ex_time ex_tiles_dir _
                  ltac:(vm_compute; reflexivity))).
Defined.

(** X10: the count does not depend on the order in which [os.walk] lists
    the entries of a directory. *)
Theorem get_tile_count_order (mt mt' : Z) (es es' : list (str * node)) :
  Permutation es es' ->
  get_tile_count (Dir mt es) = get_tile_count (Dir mt' es').
Proof.
  intros H. cbn [get_tile_count].
  induction H as [| x l l' H IH | x y l | l l' l'' H1 IH1 H2 IH2].
  - reflexivity.
  - cbn [filter map]. 
    repeat match goal with
           | |- context [list_sum (?a :: ?r)] =>
               change (list_sum (a :: r)) with (a + list_sum r)
           end.
    destruct (negb (is_dir (snd x)) && Py.endswith (fst x) gph); cbn [length]; lia.
  - cbn [filter map].
    repeat match goal with
           | |- context [list_sum (?a :: ?r)] =>
               change (list_sum (a :: r)) with (a + list_sum r)
           end.
    destruct (negb (is_dir (snd x)) && Py.endswith (fst x) gph);
      destruct (negb (is_dir (snd y)) && Py.endswith (fst y) gph);
      cbn [length]; lia.
  - lia.
Qed.

Lemma get_tile_count_order_witness :
  get_tile_count ex_tiles
  = get_tile_count
      (Dir 5 [ (s "0", Dir 0 [ (s "001.gph", File 0 (repeat Byte.x01 10)) ]);
               (s "1", Dir 0 [ (s "002", Dir 0 [ (s "003.gph", File 0 (repeat Byte.x01 20)) ]) ]) ]).
Proof.
  apply get_tile_count_order. apply perm_swap.
Defined.

(** ** The index of a completed run *)




Section MoreRuns.

Variable tobuf : TarInfo -> list byte.
Variable time : nat -> Z.
Hypothesis tobuf_length : forall ti, length (tobuf ti) = BLOCKSIZE.






Ltac branch_cases :=
  repeat match goal with
         | |- context [match ?x with _ => _ end] => destruct x eqn:?
         end.


(** X15: a run never changes the tile directory; without [do_traffic] it
    leaves the traffic archive as it was; it ends with [sys.exit(1)] only
    before it has written anything, and every other end leaves a primary
    archive on disk. *)
Theorem run_frame (fs : FS) (do_traffic bound : bool) :
  let run := create_extracts tobuf time fs do_traffic bound in
  tile_dir (snd run) = tile_dir fs
  /\ (do_traffic = false -> traffic_file (snd run) = traffic_file fs)
  /\ (fst run = Exit 1 -> snd run = fs)
  /\ (fst run <> Exit 1 -> extract_file (snd run) <> None).
Proof.
  cbv zeta. unfold create_extracts. cbv zeta.
  destruct fs as [td ef tf]. cbn [tile_dir extract_file traffic_file].
  destruct do_traffic; cbn [negb];
  branch_cases; cbn [fst snd negb tile_dir extract_file traffic_file];
    repeat split; try reflexivity; try discriminate;
    try (intros Hn; now contradiction Hn).
Qed.

End MoreRuns.





(** ** The __main__ block: reading the configuration *)

(** A parsed JSON document, as [json.load] returns it: an object is a
    [dict], and of two members with one key the later one stays.  Numbers
    are kept as their text: the script reads none. *)
#[local] Unset Elimination Schemes.
Inductive json : Type :=
| JNull
| JBool (b : bool)
| JNumber (literal : str)
| JString (v : str)
| JArray (items : list json)
| JObject (members : list (str * json)).
#[local] Set Elimination Schemes.

Fixpoint dict_get (members : list (str * json)) (key : str) : option json :=
  match members with
  | [] => None
  | (k, v) :: rest =>
      match dict_get rest key with
      | Some later => Some later
      | None => if list_eq_dec ascii_dec k key then Some v else None
      end
  end.

Inductive config_error : Type :=
| KeyError (key : str)    (* a dict without the key *)
| TypeError.              (* a subscript or a Path of a value of another type *)

(** [v[key]] for a text key: only a dict can be subscripted with one. *)
Definition subscript (v : json) (key : str) : config_error + json :=
  match v with
  | JObject members =>
      match dict_get members key with
      | Some x => inr x
      | None => inl (KeyError key)
      end
  | _ => inl TypeError
  end.

(** [Path(v)]: of the values of a JSON document only a string is a path. *)
Definition Path (v : json) : config_error + str :=
  match v with
  | JString p => inr p
  | _ => inl TypeError
  end.

(** [Path(config["mjolnir"][key])] *)
Definition config_path (config : json) (key : str) : config_error + str :=
  match subscript config (s "mjolnir") with
  | inl e => inl e
  | inr mjolnir =>
      match subscript mjolnir key with
      | inl e => inl e
      | inr v => Path v
      end
  end.

(** The three assignments of the block, in their order: [extract_fp],
    [tiles_fp], [traffic_fp]. *)
Definition read_config (config : json) : config_error + (str * str * str) :=
  match config_path config (s "tile_extract") with
  | inl e => inl e
  | inr extract_fp =>
      match config_path config (s "tile_dir") with
      | inl e => inl e
      | inr tiles_fp =>
          match config_path config (s "traffic_extract") with
          | inl e => inl e
          | inr traffic_fp => inr (extract_fp, tiles_fp, traffic_fp)
          end
      end
  end.

(** The level the logger is set to, by the number of [-v] flags. *)
Inductive log_level : Type := CRITICAL | INFO | DEBUG.

Definition logger_level (verbosity : nat) : log_level :=
  match verbosity with
  | 0 => CRITICAL
  | 1 => INFO
  | _ => DEBUG
  end.

Section MainBlock.

Variable tobuf : TarInfo -> list byte.
Variable time : nat -> Z.

(** The block from the loaded configuration on: the three paths are read,
    the logger is set, and [create_extracts] is called with [traffic_fp]
    bound.  The paths name the three places of [FS]. *)
Definition script (config : json) (verbosity : nat) (traffic : bool) (fs : FS)
  : (config_error + outcome) * FS :=
  match read_config config with
  | inl e => (inl e, fs)
  | inr _ =>
      let _ := logger_level verbosity in
      let (o, fs') := create_extracts tobuf time fs traffic true in
      (inr o, fs')
  end.

(** X16: the script needs all three paths, [mjolnir.traffic_extract] too
    when [--traffic] is not given: without that key it raises [KeyError]
    before [create_extracts] is called, and no file is touched. *)
Theorem traffic_extract_is_required (top ms : list (str * json))
        (extract_fp tiles_fp : str) (verbosity : nat) (traffic : bool) (fs : FS) :
  dict_get top (s "mjolnir") = Some (JObject ms) ->
  dict_get ms (s "tile_extract") = Some (JString extract_fp) ->
  dict_get ms (s "tile_dir") = Some (JString tiles_fp) ->
  dict_get ms (s "traffic_extract") = None ->
  script (JObject top) verbosity traffic fs
  = (inl (KeyError (s "traffic_extract")), fs).
Proof.
  intros Hm He Ht Hn. unfold script, read_config, config_path, subscript.
  rewrite Hm, He, Ht, Hn. reflexivity.
Qed.

End MainBlock.


Definition ex_config_mjolnir : list (str * json) :=
  [ (s "tile_dir", JString (s "valhalla_tiles"));
    (s "tile_extract", JString (s "valhalla_tiles.tar")) ].

Definition ex_config : json := JObject [ (s "mjolnir", JObject ex_config_mjolnir) ].

Lemma traffic_extract_is_required_witness :
  script ex_tobuf ex_time ex_config 0 false ex_fs
  = (inl (KeyError (s "traffic_extract")), ex_fs).
Proof.
  exact (traffic_extract_is_required ex_tobuf ex_time
           [ (s "mjolnir", JObject ex_config_mjolnir) ] ex_config_mjolnir
           (s "valhalla_tiles.tar") (s "valhalla_tiles") 0 false ex_fs
           eq_refl eq_refl eq_refl eq_refl).
Defined.
